(** * seika: a Rust-like [Result<T, E>] for TypeScript

    A shallow embedding of [src/helpers.ts], [src/result-type.ts],
    [src/methods.ts] (the functional API over a plain tagged object) and
    [src/result-class.ts] (the class-based API: [Res], [Ok], [Err]),
    followed by the properties the specification states about them. *)

From Stdlib Require Import String List Bool ZArith Lia.
Import ListNotations.
Local Open Scope string_scope.
Set Warnings "-register-all".

(** ** JavaScript values *)

(** The two concrete subclasses of the abstract class [Res]. *)
Inductive class := Ok | Err.

(** The values a payload, a callback result or a thrown exception can be.
    A plain object is the list of its own properties in insertion order
    (the order is part of what a serializer prints; no literal in the
    sources repeats a key).  An instance of [Ok] or [Err] carries its class
    and its own fields.  [number] holds the integer-valued numbers only. *)
Inductive value :=
| undefined
| null
| boolean (b : bool)
| number (n : Z)
| str (s : string)
| object (props : list (string * value))
| instance (c : class) (fields : list (string * value))
| error (name message : string).

(** [type Result<T, E> = { kind: "ok"; inner: T } | { kind: "err"; inner: E }]
    is a type of plain objects. *)
Definition Result := list (string * value).

(** An object of class [Ok] or [Err]: what the type [Res<T, E>] ranges over,
    [Res] itself being abstract. *)
Record Res := mkRes { class_of : class; fields : list (string * value) }.

(** [lookup k props]: the own property [k], if there is one. *)
Fixpoint lookup (k : string) (props : list (string * value)) : option value :=
  match props with
  | [] => None
  | (k', v) :: rest => if String.eqb k k' then Some v else lookup k rest
  end.

(** [o.k] for a data property: reading a property the object does not have
    gives [undefined].  (Neither [Object.prototype] nor the classes below
    define a data property, and no field of the sources is named like a
    method.) *)
Definition get (props : list (string * value)) (k : string) : value :=
  match lookup k props with
  | Some v => v
  | None => undefined
  end.

(** [Object.keys(o)] *)
Definition keys (props : list (string * value)) : list string :=
  List.map fst props.

(** [v === "s"] for a string literal on the right. *)
Definition strict_eq_string (v : value) (s : string) : bool :=
  match v with
  | str s' => String.eqb s' s
  | _ => false
  end.

Notation "v === s" := (strict_eq_string v s) (at level 50, no associativity).

(** [new Error(message)] *)
Definition new_Error (message : string) : value := error "Error" message.

(** ** Effects

    A call either completes normally or throws; a callback may in addition
    read and change the state [W] of the program around the library. *)
Inductive Completion (A : Type) :=
| Normal (a : A)
| Throw (exn : value).

Arguments Normal {A} a.
Arguments Throw {A} exn.

Definition M (W A : Type) : Type := W -> Completion A * W.

Definition ret {W A} (a : A) : M W A := fun w => (Normal a, w).

Definition throw {W A} (exn : value) : M W A := fun w => (Throw exn, w).

Definition bind {W A B} (c : M W A) (k : A -> M W B) : M W B :=
  fun w =>
    match c w with
    | (Normal a, w') => k a w'
    | (Throw exn, w') => (Throw exn, w')
    end.

(** A function that throws but calls nothing runs in any state. *)
Definition lift {W A} (c : Completion A) : M W A := fun w => (c, w).

Declare Scope js_scope.
Delimit Scope js_scope with js.
Notation "x <- c ;; k" := (bind c (fun x => k))
  (at level 61, c at next level, right associativity) : js_scope.
Notation "c ;; k" := (bind c (fun _ => k))
  (at level 61, right associativity) : js_scope.
Local Open Scope js_scope.

(** ** src/helpers.ts *)
Module helpers.

(** [return { kind: "ok", inner: value }] *)
Definition ok (value : value) : Result :=
  [("kind", str "ok"); ("inner", value)].

(** [return { kind: "err", inner: value }] *)
Definition err (value : value) : Result :=
  [("kind", str "err"); ("inner", value)].

End helpers.

(** The objects the type [Result<T, E>] admits: the discriminant is one of
    the two literals and the payload property is present. *)
Definition has_type_Result (r : Result) : bool :=
  ((get r "kind" === "ok") || (get r "kind" === "err"))
  && match lookup "inner" r with Some _ => true | None => false end.

(** ** src/methods.ts *)
Module methods.
Section WithWorld.
Context {W : Type}.

(** [result.kind === "ok" ? ok(result.inner) : err(result.inner)], the two
    handlers being the fields of the second argument. *)
Definition match_ {OK : Type} (result : Result)
    (ok : value -> M W OK) (err : value -> M W OK) : M W OK :=
  if get result "kind" === "ok" then ok (get result "inner")
  else err (get result "inner").

Definition isOk (result : Result) : bool :=
  get result "kind" === "ok".

(** [result.kind === "ok" && predicate(result.inner)] *)
Definition isOkAnd (result : Result) (predicate : value -> M W bool)
  : M W bool :=
  if get result "kind" === "ok" then predicate (get result "inner")
  else ret false.

Definition isErr (result : Result) : bool :=
  get result "kind" === "err".

Definition isErrAnd (result : Result) (predicate : value -> M W bool)
  : M W bool :=
  if get result "kind" === "err" then predicate (get result "inner")
  else ret false.

Definition resultOk (result : Result) : value :=
  if get result "kind" === "ok" then get result "inner" else undefined.

Definition resultErr (result : Result) : value :=
  if get result "kind" === "err" then get result "inner" else undefined.

Definition map (result : Result) (fn : value -> M W value) : M W Result :=
  if get result "kind" === "ok"
  then (y <- fn (get result "inner") ;;
        ret [("kind", str "ok"); ("inner", y)])
  else ret result.

Definition mapOr (result : Result) (defaultValue : value)
    (fn : value -> M W value) : M W value :=
  if get result "kind" === "ok" then fn (get result "inner")
  else ret defaultValue.

Definition mapOrElse (result : Result) (fallback : value -> M W value)
    (fn : value -> M W value) : M W value :=
  if get result "kind" === "ok" then fn (get result "inner")
  else fallback (get result "inner").

Definition mapErr (result : Result) (fn : value -> M W value)
  : M W Result :=
  if get result "kind" === "err"
  then (y <- fn (get result "inner") ;;
        ret [("kind", str "err"); ("inner", y)])
  else ret result.

Definition inspect (result : Result) (fn : value -> M W value)
  : M W Result :=
  (if get result "kind" === "ok"
   then (fn (get result "inner") ;; ret tt)
   else ret tt) ;;
  ret result.

Definition inspectErr (result : Result) (fn : value -> M W value)
  : M W Result :=
  (if get result "kind" === "err"
   then (fn (get result "inner") ;; ret tt)
   else ret tt) ;;
  ret result.

Definition expect (result : Result) (message : string) : Completion value :=
  if get result "kind" === "ok" then Normal (get result "inner")
  else Throw (new_Error message).

Definition unwrap (result : Result) : Completion value :=
  if get result "kind" === "ok" then Normal (get result "inner")
  else Throw (new_Error "Called unwrap on an Err value").

Definition unwrapOr (result : Result) (defaultValue : value) : value :=
  if get result "kind" === "ok" then get result "inner" else defaultValue.

Definition unwrapOrElse (result : Result) (fn : value -> M W value)
  : M W value :=
  if get result "kind" === "ok" then ret (get result "inner")
  else fn (get result "inner").

Definition expectErr (result : Result) (message : string)
  : Completion value :=
  if get result "kind" === "err" then Normal (get result "inner")
  else Throw (new_Error message).

Definition unwrapErr (result : Result) : Completion value :=
  if get result "kind" === "err" then Normal (get result "inner")
  else Throw (new_Error "Called unwrapErr on an Ok value").

Definition and (result other : Result) : Result :=
  if get result "kind" === "ok" then other else result.

Definition andThen (result : Result) (fn : value -> M W Result)
  : M W Result :=
  if get result "kind" === "ok" then fn (get result "inner")
  else ret result.

Definition or (result other : Result) : Result :=
  if get result "kind" === "ok" then result else other.

Definition orElse (result : Result) (fn : value -> M W Result)
  : M W Result :=
  if get result "kind" === "ok" then ret result
  else fn (get result "inner").

End WithWorld.
End methods.

(** ** src/result-class.ts *)

(** Both [Ok] and [Err] declare the field of the other variant without ever
    assigning it ([public readonly error!: E], [public readonly value!: T]).
    Whether such a declaration creates an own property holding [undefined]
    is decided by the compiler option [useDefineForClassFields], which the
    sources do not fix: the embedding takes it as a parameter. *)
Class TsConfig := { useDefineForClassFields : bool }.

(** The own property a field declaration without initializer leaves.  (It
    is put before the assigned field; nothing in the sources enumerates the
    fields of an instance, so their order is never seen.) *)
Definition declared {cfg : TsConfig} (k : string) : list (string * value) :=
  if useDefineForClassFields then [(k, undefined)] else [].

(** [this.k] for a field of an instance. *)
Definition field (this : Res) (k : string) : value := get (fields this) k.

Module Ok.

(** [constructor(public readonly value: T) { super(); }] together with the
    declaration [public readonly error!: E]. *)
Definition new {cfg : TsConfig} (value : value) : Res :=
  {| class_of := Ok; fields := declared "error" ++ [("value", value)] |}.

Module prototype.

Definition isOk (this : Res) : bool := true.

Definition isErr (this : Res) : bool := false.

(** [return { kind: "ok", value: this.value }] *)
Definition toJSON (this : Res) : list (string * value) :=
  [("kind", str "ok"); ("value", field this "value")].

End prototype.
End Ok.

Module Err.

(** [constructor(public readonly error: E) { super(); }] together with the
    declaration [public readonly value!: T]. *)
Definition new {cfg : TsConfig} (error : value) : Res :=
  {| class_of := Err; fields := declared "value" ++ [("error", error)] |}.

Module prototype.

Definition isOk (this : Res) : bool := false.

Definition isErr (this : Res) : bool := true.

(** [return { kind: "err", error: this.error }] *)
Definition toJSON (this : Res) : list (string * value) :=
  [("kind", str "err"); ("error", field this "error")].

End prototype.
End Err.

(** The calls [this.isOk()], [this.isErr()] and [this.toJSON()]: [Res]
    declares the first two abstract and the object's class decides which
    body runs. *)
Definition call_isOk (this : Res) : bool :=
  match class_of this with
  | Ok => Ok.prototype.isOk this
  | Err => Err.prototype.isOk this
  end.

Definition call_isErr (this : Res) : bool :=
  match class_of this with
  | Ok => Ok.prototype.isErr this
  | Err => Err.prototype.isErr this
  end.

Definition call_toJSON (this : Res) : list (string * value) :=
  match class_of this with
  | Ok => Ok.prototype.toJSON this
  | Err => Err.prototype.toJSON this
  end.

Module Res.

(** The methods of the abstract class. *)
Module prototype.
Section WithWorld.
Context {W : Type} {cfg : TsConfig}.

(** [this.isOk() && predicate(this.value)] *)
Definition isOkAnd (this : Res) (predicate : value -> M W bool) : M W bool :=
  if call_isOk this then predicate (field this "value") else ret false.

Definition isErrAnd (this : Res) (predicate : value -> M W bool) : M W bool :=
  if call_isErr this then predicate (field this "error") else ret false.

Definition ok (this : Res) : value :=
  if call_isOk this then field this "value" else undefined.

Definition err (this : Res) : value :=
  if call_isErr this then field this "error" else undefined.

(** [this.isOk() ? new Ok(fn(this.value)) : new Err(this.error)] *)
Definition map (this : Res) (fn : value -> M W value) : M W Res :=
  if call_isOk this
  then (y <- fn (field this "value") ;; ret (Ok.new y))
  else ret (Err.new (field this "error")).

Definition mapOr (this : Res) (defaultValue : value)
    (fn : value -> M W value) : M W value :=
  if call_isOk this then fn (field this "value") else ret defaultValue.

Definition mapOrElse (this : Res) (fallback : value -> M W value)
    (fn : value -> M W value) : M W value :=
  if call_isOk this then fn (field this "value")
  else fallback (field this "error").

(** [this.isErr() ? new Err(fn(this.error)) : new Ok(this.value)] *)
Definition mapErr (this : Res) (fn : value -> M W value) : M W Res :=
  if call_isErr this
  then (y <- fn (field this "error") ;; ret (Err.new y))
  else ret (Ok.new (field this "value")).

Definition inspect (this : Res) (fn : value -> M W value) : M W Res :=
  (if call_isOk this
   then (fn (field this "value") ;; ret tt)
   else ret tt) ;;
  ret this.

Definition inspectErr (this : Res) (fn : value -> M W value) : M W Res :=
  (if call_isErr this
   then (fn (field this "error") ;; ret tt)
   else ret tt) ;;
  ret this.

Definition expect (this : Res) (message : string) : Completion value :=
  if call_isOk this then Normal (field this "value")
  else Throw (new_Error message).

Definition unwrap (this : Res) : Completion value :=
  if call_isOk this then Normal (field this "value")
  else Throw (new_Error "Called unwrap on an Err value").

Definition unwrapOr (this : Res) (defaultValue : value) : value :=
  if call_isOk this then field this "value" else defaultValue.

Definition unwrapOrElse (this : Res) (fn : value -> M W value) : M W value :=
  if call_isOk this then ret (field this "value")
  else fn (field this "error").

Definition expectErr (this : Res) (message : string) : Completion value :=
  if call_isErr this then Normal (field this "error")
  else Throw (new_Error message).

Definition unwrapErr (this : Res) : Completion value :=
  if call_isErr this then Normal (field this "error")
  else Throw (new_Error "Called unwrapErr on an Ok value").

(** [this.isOk() ? other : new Err(this.error)] *)
Definition and (this other : Res) : Res :=
  if call_isOk this then other else Err.new (field this "error").

Definition andThen (this : Res) (fn : value -> M W Res) : M W Res :=
  if call_isOk this then fn (field this "value")
  else ret (Err.new (field this "error")).

(** [this.isOk() ? new Ok(this.value) : other] *)
Definition or (this other : Res) : Res :=
  if call_isOk this then Ok.new (field this "value") else other.

Definition orElse (this : Res) (fn : value -> M W Res) : M W Res :=
  if call_isOk this then ret (Ok.new (field this "value"))
  else fn (field this "error").

End WithWorld.
End prototype.

(** The static members. *)
Definition ok {cfg : TsConfig} (value : value) : Res := Ok.new value.

Definition err {cfg : TsConfig} (error : value) : Res := Err.new error.

(** [result.kind === "ok" ? Res.ok(result.inner) : Res.err(result.inner)] *)
Definition from {cfg : TsConfig} (result : Result) : Res :=
  if get result "kind" === "ok" then ok (get result "inner")
  else err (get result "inner").

End Res.

(** ** The two APIs side by side *)

(** What a caller sees of the result of an operation: a boolean, a plain
    extracted value, or a result, of which it sees the two answers and the
    payload. *)
Inductive Observation :=
| a_boolean (b : bool)
| a_value (v : value)
| a_result (isOk isErr : bool) (payload : value).

Definition observe_Result (r : Result) : Observation :=
  a_result (methods.isOk r) (methods.isErr r) (get r "inner").

Definition observe_Res (x : Res) : Observation :=
  a_result (call_isOk x) (call_isErr x)
           (if call_isOk x then field x "value" else field x "error").

(** A tagged value and an instance are equivalent inputs when the tagged
    value is well typed and both show the same variant and payload. *)
Definition equivalent (r : Result) (x : Res) : Prop :=
  has_type_Result r = true /\ observe_Result r = observe_Res x.

(** The arguments an operation may take besides the result itself; [R] is
    [Result] for the functions and [Res] for the methods. *)
Record Args (W R : Type) := {
  predicate : value -> M W bool;
  fn : value -> M W value;
  fallback : value -> M W value;
  defaultValue : value;
  message : string;
  other : R;
  next : value -> M W R;
  handler_ok : value -> M W value;
  handler_err : value -> M W value
}.

Arguments predicate {W R} _.
Arguments fn {W R} _.
Arguments fallback {W R} _.
Arguments defaultValue {W R} _.
Arguments message {W R} _.
Arguments other {W R} _.
Arguments next {W R} _.
Arguments handler_ok {W R} _.
Arguments handler_err {W R} _.

(** The functions [src/methods.ts] exports. *)
Inductive operation :=
| op_match | op_isOk | op_isOkAnd | op_isErr | op_isErrAnd
| op_resultOk | op_resultErr
| op_map | op_mapOr | op_mapOrElse | op_mapErr
| op_inspect | op_inspectErr
| op_expect | op_unwrap | op_unwrapOr | op_unwrapOrElse
| op_expectErr | op_unwrapErr
| op_and | op_andThen | op_or | op_orElse.

(** The instance methods [src/result-class.ts] declares for [Res], [Ok] and
    [Err].  ([toString], which depends on how JavaScript prints a payload, is
    modelled apart, further down, and not listed.) *)
Inductive method :=
| m_isOk | m_isErr | m_isOkAnd | m_isErrAnd | m_ok | m_err
| m_map | m_mapOr | m_mapOrElse | m_mapErr
| m_inspect | m_inspectErr
| m_expect | m_unwrap | m_unwrapOr | m_unwrapOrElse
| m_expectErr | m_unwrapErr
| m_and | m_andThen | m_or | m_orElse
| m_toJSON.

(** The name each method is declared under. *)
Definition name_of (m : method) : string :=
  match m with
  | m_isOk => "isOk" | m_isErr => "isErr"
  | m_isOkAnd => "isOkAnd" | m_isErrAnd => "isErrAnd"
  | m_ok => "ok" | m_err => "err"
  | m_map => "map" | m_mapOr => "mapOr" | m_mapOrElse => "mapOrElse"
  | m_mapErr => "mapErr"
  | m_inspect => "inspect" | m_inspectErr => "inspectErr"
  | m_expect => "expect" | m_unwrap => "unwrap" | m_unwrapOr => "unwrapOr"
  | m_unwrapOrElse => "unwrapOrElse"
  | m_expectErr => "expectErr" | m_unwrapErr => "unwrapErr"
  | m_and => "and" | m_andThen => "andThen" | m_or => "or"
  | m_orElse => "orElse"
  | m_toJSON => "toJSON"
  end.

Definition all_methods : list method :=
  [m_isOk; m_isErr; m_isOkAnd; m_isErrAnd; m_ok; m_err;
   m_map; m_mapOr; m_mapOrElse; m_mapErr; m_inspect; m_inspectErr;
   m_expect; m_unwrap; m_unwrapOr; m_unwrapOrElse; m_expectErr; m_unwrapErr;
   m_and; m_andThen; m_or; m_orElse; m_toJSON].

(** The method an instance has under a given name, if any. *)
Definition find_method (name : string) : option method :=
  List.find (fun m => String.eqb (name_of m) name) all_methods.

(** The name under which the class API offers an operation: the function's
    own name, except that [resultOk] and [resultErr] are the methods [ok]
    and [err]. *)
Definition method_name (o : operation) : string :=
  match o with
  | op_match => "match"
  | op_isOk => "isOk" | op_isErr => "isErr"
  | op_isOkAnd => "isOkAnd" | op_isErrAnd => "isErrAnd"
  | op_resultOk => "ok" | op_resultErr => "err"
  | op_map => "map" | op_mapOr => "mapOr" | op_mapOrElse => "mapOrElse"
  | op_mapErr => "mapErr"
  | op_inspect => "inspect" | op_inspectErr => "inspectErr"
  | op_expect => "expect" | op_unwrap => "unwrap" | op_unwrapOr => "unwrapOr"
  | op_unwrapOrElse => "unwrapOrElse"
  | op_expectErr => "expectErr" | op_unwrapErr => "unwrapErr"
  | op_and => "and" | op_andThen => "andThen" | op_or => "or"
  | op_orElse => "orElse"
  end.

Section SideBySide.
Context {W : Type} {cfg : TsConfig}.

(** [op(r, ...)] and what the caller sees of its result. *)
Definition apply_function (o : operation) (a : Args W Result) (r : Result)
  : M W Observation :=
  match o with
  | op_match =>
      v <- methods.match_ r (handler_ok a) (handler_err a) ;; ret (a_value v)
  | op_isOk => ret (a_boolean (methods.isOk r))
  | op_isOkAnd => b <- methods.isOkAnd r (predicate a) ;; ret (a_boolean b)
  | op_isErr => ret (a_boolean (methods.isErr r))
  | op_isErrAnd => b <- methods.isErrAnd r (predicate a) ;; ret (a_boolean b)
  | op_resultOk => ret (a_value (methods.resultOk r))
  | op_resultErr => ret (a_value (methods.resultErr r))
  | op_map => r' <- methods.map r (fn a) ;; ret (observe_Result r')
  | op_mapOr =>
      v <- methods.mapOr r (defaultValue a) (fn a) ;; ret (a_value v)
  | op_mapOrElse =>
      v <- methods.mapOrElse r (fallback a) (fn a) ;; ret (a_value v)
  | op_mapErr => r' <- methods.mapErr r (fn a) ;; ret (observe_Result r')
  | op_inspect => r' <- methods.inspect r (fn a) ;; ret (observe_Result r')
  | op_inspectErr =>
      r' <- methods.inspectErr r (fn a) ;; ret (observe_Result r')
  | op_expect => v <- lift (methods.expect r (message a)) ;; ret (a_value v)
  | op_unwrap => v <- lift (methods.unwrap r) ;; ret (a_value v)
  | op_unwrapOr => ret (a_value (methods.unwrapOr r (defaultValue a)))
  | op_unwrapOrElse => v <- methods.unwrapOrElse r (fn a) ;; ret (a_value v)
  | op_expectErr =>
      v <- lift (methods.expectErr r (message a)) ;; ret (a_value v)
  | op_unwrapErr => v <- lift (methods.unwrapErr r) ;; ret (a_value v)
  | op_and => ret (observe_Result (methods.and r (other a)))
  | op_andThen => r' <- methods.andThen r (next a) ;; ret (observe_Result r')
  | op_or => ret (observe_Result (methods.or r (other a)))
  | op_orElse => r' <- methods.orElse r (next a) ;; ret (observe_Result r')
  end.

(** [this.m(...)] and what the caller sees of its result. *)
Definition call_method (m : method) (a : Args W Res) (this : Res)
  : M W Observation :=
  match m with
  | m_isOk => ret (a_boolean (call_isOk this))
  | m_isErr => ret (a_boolean (call_isErr this))
  | m_isOkAnd =>
      b <- Res.prototype.isOkAnd this (predicate a) ;; ret (a_boolean b)
  | m_isErrAnd =>
      b <- Res.prototype.isErrAnd this (predicate a) ;; ret (a_boolean b)
  | m_ok => ret (a_value (Res.prototype.ok this))
  | m_err => ret (a_value (Res.prototype.err this))
  | m_map => x <- Res.prototype.map this (fn a) ;; ret (observe_Res x)
  | m_mapOr =>
      v <- Res.prototype.mapOr this (defaultValue a) (fn a) ;; ret (a_value v)
  | m_mapOrElse =>
      v <- Res.prototype.mapOrElse this (fallback a) (fn a) ;;
      ret (a_value v)
  | m_mapErr => x <- Res.prototype.mapErr this (fn a) ;; ret (observe_Res x)
  | m_inspect => x <- Res.prototype.inspect this (fn a) ;; ret (observe_Res x)
  | m_inspectErr =>
      x <- Res.prototype.inspectErr this (fn a) ;; ret (observe_Res x)
  | m_expect =>
      v <- lift (Res.prototype.expect this (message a)) ;; ret (a_value v)
  | m_unwrap => v <- lift (Res.prototype.unwrap this) ;; ret (a_value v)
  | m_unwrapOr =>
      ret (a_value (Res.prototype.unwrapOr this (defaultValue a)))
  | m_unwrapOrElse =>
      v <- Res.prototype.unwrapOrElse this (fn a) ;; ret (a_value v)
  | m_expectErr =>
      v <- lift (Res.prototype.expectErr this (message a)) ;; ret (a_value v)
  | m_unwrapErr => v <- lift (Res.prototype.unwrapErr this) ;; ret (a_value v)
  | m_and => ret (observe_Res (Res.prototype.and this (other a)))
  | m_andThen => x <- Res.prototype.andThen this (next a) ;; ret (observe_Res x)
  | m_or => ret (observe_Res (Res.prototype.or this (other a)))
  | m_orElse => x <- Res.prototype.orElse this (next a) ;; ret (observe_Res x)
  | m_toJSON => ret (a_value (object (call_toJSON this)))
  end.

(** [this[name](...)]: calling a member the object does not have throws a
    [TypeError], whose message is the engine's own. *)
Definition invoke (this : Res) (name : string) (a : Args W Res)
  : M W Observation :=
  match find_method name with
  | Some m => call_method m a this
  | None => throw (error "TypeError" (name ++ " is not a function"))
  end.

Definition apply_method (o : operation) (a : Args W Res) (this : Res)
  : M W Observation :=
  invoke this (method_name o) a.

(** Two calls of a callback that returns a result end alike: same state,
    and equivalent results or the same exception. *)
Definition equivalent_outcomes
    (c : Completion Result * W) (c' : Completion Res * W) : Prop :=
  snd c = snd c'
  /\ match fst c, fst c' with
     | Normal r, Normal x => equivalent r x
     | Throw exn, Throw exn' => exn = exn'
     | _, _ => False
     end.

(** Equivalent arguments: the same callbacks, default and message, an
    equivalent [other], and result-returning callbacks that end alike. *)
Definition equivalent_args (a : Args W Result) (a' : Args W Res) : Prop :=
  (forall v w, predicate a v w = predicate a' v w)
  /\ (forall v w, fn a v w = fn a' v w)
  /\ (forall v w, fallback a v w = fallback a' v w)
  /\ defaultValue a = defaultValue a'
  /\ message a = message a'
  /\ equivalent (other a) (other a')
  /\ (forall v w, equivalent_outcomes (next a v w) (next a' v w))
  /\ (forall v w, handler_ok a v w = handler_ok a' v w)
  /\ (forall v w, handler_err a v w = handler_err a' v w).

End SideBySide.

(** ** Test doubles *)

(** [x => x] *)
Definition identity {W} : value -> M W value := fun x => ret x.

(** A spy around a callback, in the manner of [vi.fn(impl)]: the program
    state is extended with the list of the arguments of the calls made so
    far, and every call appends its argument before running [impl]. *)
Definition spy {W A} (impl : value -> M W A) : value -> M (list value * W) A :=
  fun x s =>
    match impl x (snd s) with
    | (c, w') => (c, ((fst s ++ [x])%list, w'))
    end.

(** [x => x * 2] on the integer-valued numbers; [NaN] is left out of
    [value], and [undefined] stands in for it here. *)
Definition double {W} : value -> M W value :=
  fun x => match x with
           | number n => ret (number (n * 2))
           | _ => ret undefined
           end.

(** [x => x > 3 ? ok(x) : err("too small")] and its class-based twin. *)
Definition more_than_three {W} : value -> M W Result :=
  fun x => match x with
           | number n =>
               if (3 <? n)%Z then ret (helpers.ok x)
               else ret (helpers.err (str "too small"))
           | _ => ret (helpers.err (str "too small"))
           end.

Definition more_than_three_Res {W} {cfg : TsConfig} : value -> M W Res :=
  fun x => match x with
           | number n =>
               if (3 <? n)%Z then ret (Res.ok x)
               else ret (Res.err (str "too small"))
           | _ => ret (Res.err (str "too small"))
           end.

(** [x => Res.ok(x + 1)] *)
Definition next_Res {W} {cfg : TsConfig} : value -> M W Res :=
  fun x => match x with
           | number n => ret (Res.ok (number (n + 1)))
           | _ => ret (Res.ok undefined)
           end.

(** The two settings of the compiler option. *)
Definition define_fields : TsConfig := {| useDefineForClassFields := true |}.
Definition assign_fields : TsConfig := {| useDefineForClassFields := false |}.

(** A full set of arguments for the side-by-side runs, in a program without
    state: [other] and the result of [next] are supplied by the caller. *)
Definition sample_args {R} (other : R) (next : value -> M unit R)
  : Args unit R :=
  {| predicate := fun _ => ret true;
     fn := double;
     fallback := identity;
     defaultValue := number 0;
     message := "no value";
     other := other;
     next := next;
     handler_ok := identity;
     handler_err := fun _ => ret (number 0) |}.

(** ** Equality of tagged values

    Two tagged values are equal when their discriminants are equal and their
    payloads are equal. *)
Definition same_Result (r1 r2 : Result) : Prop :=
  get r1 "kind" = get r2 "kind" /\ get r1 "inner" = get r2 "inner".

(** ** [toString]

    [toString()] of [Ok] is [`Ok(${this.value})`] and of [Err] is
    [`Err(${this.error})`].  How the template literal turns the payload into
    a string is the engine's business: for an object it runs the payload's
    own conversion, which can change state and throw.  That conversion is a
    parameter here. *)
Definition Ok_toString {W} (ToString : value -> M W string) (this : Res)
  : M W string :=
  s <- ToString (field this "value") ;; ret ("Ok(" ++ s ++ ")").

Definition Err_toString {W} (ToString : value -> M W string) (this : Res)
  : M W string :=
  s <- ToString (field this "error") ;; ret ("Err(" ++ s ++ ")").

(** The conversion restricted to the strings, which are their own text; on
    anything else this stand-in throws. *)
Definition text_of_string : value -> M unit string :=
  fun x => match x with
           | str s => ret s
           | _ => throw (error "TypeError" "not a string")
           end.

(** * Properties *)

(** ** Reading the objects the constructors build *)

Lemma get_ok_kind (v : value) : get (helpers.ok v) "kind" = str "ok".
Proof. reflexivity. Qed.

Lemma get_ok_inner (v : value) : get (helpers.ok v) "inner" = v.
Proof. reflexivity. Qed.

Lemma get_err_kind (e : value) : get (helpers.err e) "kind" = str "err".
Proof. reflexivity. Qed.

Lemma get_err_inner (e : value) : get (helpers.err e) "inner" = e.
Proof. reflexivity. Qed.

Lemma ok_has_type (v : value) : has_type_Result (helpers.ok v) = true.
Proof. reflexivity. Qed.

Lemma err_has_type (e : value) : has_type_Result (helpers.err e) = true.
Proof. reflexivity. Qed.

Section Fields.
Context {cfg : TsConfig}.

Lemma Ok_value (v : value) : field (Ok.new v) "value" = v.
Proof.
  unfold field, Ok.new, declared; simpl.
  destruct useDefineForClassFields; reflexivity.
Qed.

Lemma Ok_error (v : value) : field (Ok.new v) "error" = undefined.
Proof.
  unfold field, Ok.new, declared; simpl.
  destruct useDefineForClassFields; reflexivity.
Qed.

Lemma Err_error (e : value) : field (Err.new e) "error" = e.
Proof.
  unfold field, Err.new, declared; simpl.
  destruct useDefineForClassFields; reflexivity.
Qed.

Lemma Err_value (e : value) : field (Err.new e) "value" = undefined.
Proof.
  unfold field, Err.new, declared; simpl.
  destruct useDefineForClassFields; reflexivity.
Qed.

Lemma Ok_isOk (v : value) : call_isOk (Ok.new v) = true.
Proof. reflexivity. Qed.

Lemma Ok_isErr (v : value) : call_isErr (Ok.new v) = false.
Proof. reflexivity. Qed.

Lemma Err_isOk (e : value) : call_isOk (Err.new e) = false.
Proof. reflexivity. Qed.

Lemma Err_isErr (e : value) : call_isErr (Err.new e) = true.
Proof. reflexivity. Qed.

End Fields.

(** What the constructors build under each setting of the option. *)
Example Ok_new_fields (v : value) :
  Ok.new (cfg := assign_fields) v
  = {| class_of := Ok; fields := [("value", v)] |}
  /\ Ok.new (cfg := define_fields) v
     = {| class_of := Ok; fields := [("error", undefined); ("value", v)] |}.
Proof. split; reflexivity. Qed.

Example Err_new_fields (e : value) :
  Err.new (cfg := assign_fields) e
  = {| class_of := Err; fields := [("error", e)] |}
  /\ Err.new (cfg := define_fields) e
     = {| class_of := Err; fields := [("value", undefined); ("error", e)] |}.
Proof. split; reflexivity. Qed.

Create Rewrite HintDb seika.
#[local] Hint Rewrite @Ok_value @Ok_error @Err_error @Err_value
  @Ok_isOk @Ok_isErr @Err_isOk @Err_isErr : seika.

(** ** The scenarios of the specification *)

Example scenario_map :
  methods.map (helpers.ok (number 5)) double tt
  = (Normal (helpers.ok (number 10)), tt)
  /\ methods.map (helpers.err (str "e")) double tt
     = (Normal (helpers.err (str "e")), tt).
Proof. split; reflexivity. Qed.

Example scenario_unwrapOr :
  methods.unwrapOr (helpers.err (str "e")) (number 0) = number 0
  /\ methods.unwrapOr (helpers.ok (number 7)) (number 0) = number 7.
Proof. split; reflexivity. Qed.

Example scenario_andThen :
  methods.andThen (helpers.ok (number 5)) more_than_three tt
  = (Normal (helpers.ok (number 5)), tt)
  /\ methods.andThen (helpers.ok (number 2)) more_than_three tt
     = (Normal (helpers.err (str "too small")), tt).
Proof. split; reflexivity. Qed.

Example scenario_chain {cfg : TsConfig} :
  (x <- Res.prototype.map (Res.ok (number 5)) double ;;
   y <- Res.prototype.andThen x next_Res ;;
   ret (Res.prototype.unwrapOr y (number 0))) tt
  = (Normal (number 11), tt).
Proof. destruct cfg as [[|]]; reflexivity. Qed.

Example scenario_or :
  methods.or (helpers.err (str "a")) (helpers.err (str "b"))
  = helpers.err (str "b")
  /\ methods.or (helpers.ok (str "x")) (helpers.err (str "a"))
     = helpers.ok (str "x").
Proof. split; reflexivity. Qed.

(** ** The shape of the tagged value *)

(** C2, as the specification words it, fails: the object [ok(1)] is not
    [{tag: "ok", inner: 1}]; it has no property [tag] at all, and reading
    [tag] gives [undefined]. *)
Lemma ok_discriminant_is_not_tag :
  helpers.ok (number 1) <> [("tag", str "ok"); ("inner", number 1)]
  /\ lookup "tag" (helpers.ok (number 1)) = None
  /\ get (helpers.ok (number 1)) "tag" = undefined.
Proof. repeat split; discriminate. Qed.

(** C2 (amended): [ok(v)] is the plain object [{kind: "ok", inner: v}] and
    [err(e)] is [{kind: "err", inner: e}]: the discriminant property is named
    [kind], the payload property [inner], and there is no other property. *)
Theorem ok_err_shape (v e : value) :
  helpers.ok v = [("kind", str "ok"); ("inner", v)]
  /\ helpers.err e = [("kind", str "err"); ("inner", e)]
  /\ keys (helpers.ok v) = ["kind"; "inner"]
  /\ keys (helpers.err e) = ["kind"; "inner"]
  /\ get (helpers.ok v) "kind" = str "ok"
  /\ get (helpers.ok v) "inner" = v
  /\ get (helpers.err e) "kind" = str "err"
  /\ get (helpers.err e) "inner" = e.
Proof. repeat split. Qed.

(** ** The bridge *)

(** C3: [Res.from(ok(x))] is the object [Res.ok(x)] builds, and answers
    [isOk()], [isErr()] and [.value] as it does; symmetrically
    [Res.from(err(e))] and [Res.err(e)], with [.error]. *)
Theorem from_ok_err {cfg : TsConfig} (x e : value) :
  (Res.from (helpers.ok x) = Res.ok x
   /\ call_isOk (Res.from (helpers.ok x)) = call_isOk (Res.ok x)
   /\ call_isErr (Res.from (helpers.ok x)) = call_isErr (Res.ok x)
   /\ field (Res.from (helpers.ok x)) "value" = field (Res.ok x) "value"
   /\ field (Res.ok x) "value" = x)
  /\
  (Res.from (helpers.err e) = Res.err e
   /\ call_isOk (Res.from (helpers.err e)) = call_isOk (Res.err e)
   /\ call_isErr (Res.from (helpers.err e)) = call_isErr (Res.err e)
   /\ field (Res.from (helpers.err e)) "error" = field (Res.err e) "error"
   /\ field (Res.err e) "error" = e).
Proof.
  unfold Res.from, Res.ok, Res.err; simpl.
  repeat split; auto using Ok_value, Err_error.
Qed.

(** ** [unwrap] *)

(** C4: [unwrap] returns the payload of a success and, on a failure with any
    error payload, throws an [Error] whose message is
    ["Called unwrap on an Err value"]; the function and the method agree. *)
Theorem unwrap_ok_err {cfg : TsConfig} (v e : value) :
  methods.unwrap (helpers.ok v) = Normal v
  /\ Res.prototype.unwrap (Res.ok v) = Normal v
  /\ methods.unwrap (helpers.err e)
     = Throw (new_Error "Called unwrap on an Err value")
  /\ Res.prototype.unwrap (Res.err e)
     = Throw (new_Error "Called unwrap on an Err value")
  /\ methods.unwrap (helpers.err (str "boom"))
     = Throw (error "Error" "Called unwrap on an Err value").
Proof.
  unfold Res.prototype.unwrap, Res.ok, Res.err.
  autorewrite with seika.
  repeat split.
Qed.

(** ** [map] *)

(** On a failure [map] returns its argument and the state it was called in,
    whatever the callback is. *)
Lemma map_not_ok {W} (r : Result) (fn : value -> M W value) (w : W) :
  methods.isOk r = false -> methods.map r fn w = (Normal r, w).
Proof.
  unfold methods.isOk, methods.map; intros E; rewrite E; reflexivity.
Qed.

(** On a success [map] calls the callback on the payload, once. *)
Lemma map_ok_calls {W} (v : value) (impl : value -> M W value) (w : W) :
  snd (methods.map (helpers.ok v) (spy impl) ([], w))
  = ([v], snd (impl v w)).
Proof.
  unfold methods.map, spy, bind; cbn.
  destruct (impl v w) as [[y|exn] w']; reflexivity.
Qed.

(** C5: [map(r, x => x)] is [r], for every tagged value: same discriminant
    and same payload, in the state the call started in.  On the values the
    constructors build it is the very same object literal. *)
Theorem map_identity {W} (r : Result) (v e : value) (w : W) :
  (exists r', methods.map r identity w = (Normal r', w) /\ same_Result r' r)
  /\ methods.map (helpers.ok v) identity w = (Normal (helpers.ok v), w)
  /\ methods.map (helpers.err e) identity w = (Normal (helpers.err e), w).
Proof.
  split; [|split; reflexivity].
  unfold methods.map, identity, bind, ret, same_Result.
  destruct (get r "kind" === "ok") eqn:E.
  - eexists; split; [reflexivity|].
    split; [|reflexivity].
    simpl. destruct (get r "kind") as [| | | |s| | |]; try discriminate.
    simpl in E. apply String.eqb_eq in E. now subst.
  - eexists; repeat split.
Qed.

(** C6: [map(err(e), f)] returns [err(e)] and leaves the state untouched for
    every callback [f], so [f] is not called: a spy passed as [f] has
    recorded no call afterwards.  The method [map] of [Res.err(e)] does the
    same and returns a failure with the same error payload. *)
Theorem map_err_short_circuit {W} {cfg : TsConfig}
    (e : value) (f : value -> M W value) (w : W) :
  methods.map (helpers.err e) f w = (Normal (helpers.err e), w)
  /\ methods.map (helpers.err e) (spy f) ([], w)
     = (Normal (helpers.err e), ([], w))
  /\ Res.prototype.map (Res.err e) f w = (Normal (Res.err e), w)
  /\ Res.prototype.map (Res.err e) (spy f) ([], w)
     = (Normal (Res.err e), ([], w))
  /\ field (Res.err e) "error" = e.
Proof.
  unfold Res.prototype.map, Res.err.
  autorewrite with seika.
  repeat split.
Qed.

(** ** Exactly one of [isOk] and [isErr] *)

(** Every instance of [Ok] or [Err] answers [isErr()] opposite to
    [isOk()]. *)
Lemma call_isErr_negb (this : Res) : call_isErr this = negb (call_isOk this).
Proof. destruct this as [[|] fs]; reflexivity. Qed.

(** C7: on what [ok], [err], [Res.ok], [Res.err] and [Res.from] build,
    exactly one of [isOk] and [isErr] answers [true]. *)
Theorem isOk_xor_isErr {cfg : TsConfig} (v e : value) (r : Result) :
  (methods.isOk (helpers.ok v) = true /\ methods.isErr (helpers.ok v) = false)
  /\ (methods.isOk (helpers.err e) = false
      /\ methods.isErr (helpers.err e) = true)
  /\ (call_isOk (Res.ok v) = true /\ call_isErr (Res.ok v) = false)
  /\ (call_isOk (Res.err e) = false /\ call_isErr (Res.err e) = true)
  /\ xorb (call_isOk (Res.from r)) (call_isErr (Res.from r)) = true
  /\ xorb (call_isOk (Res.from (helpers.ok v)))
          (call_isErr (Res.from (helpers.ok v))) = true
  /\ xorb (call_isOk (Res.from (helpers.err e)))
          (call_isErr (Res.from (helpers.err e))) = true.
Proof.
  repeat split.
  rewrite call_isErr_negb. now destruct (call_isOk (Res.from r)).
Qed.

(** ** [toJSON] *)

(** C8: [toJSON()] of [Res.ok(v)] is [{kind: "ok", value: v}] and of
    [Res.err(e)] is [{kind: "err", error: e}]; neither has a property
    [inner]. *)
Theorem toJSON_shape {cfg : TsConfig} (v e : value) :
  call_toJSON (Res.ok v) = [("kind", str "ok"); ("value", v)]
  /\ call_toJSON (Res.err e) = [("kind", str "err"); ("error", e)]
  /\ lookup "inner" (call_toJSON (Res.ok v)) = None
  /\ lookup "inner" (call_toJSON (Res.err e)) = None.
Proof.
  unfold call_toJSON, Res.ok, Res.err; simpl.
  unfold Ok.prototype.toJSON, Err.prototype.toJSON.
  autorewrite with seika.
  repeat split.
Qed.

(** ** The field of the other variant *)

(** C9: [Res.err(e).value] is [undefined] and [Res.ok(v).error] is
    [undefined], whether or not the declaration of the unassigned field
    creates a property; a field read yields a value and cannot throw. *)
Theorem mismatched_field_undefined {cfg : TsConfig} (v e : value) :
  field (Res.err e) "value" = undefined
  /\ field (Res.ok v) "error" = undefined
  /\ field (Err.new e) "value" = undefined
  /\ field (Ok.new v) "error" = undefined.
Proof.
  unfold Res.ok, Res.err. autorewrite with seika. repeat split.
Qed.

(** ** [resultOk] and a payload that is [undefined] *)

(** C10: [resultOk(ok(undefined))] is [undefined], which is also what
    [resultOk] returns for every failure; so some [r] has
    [resultOk(r) = undefined] and [isOk(r) = true], and
    [resultOk(r) = undefined] does not imply [isErr(r)]. *)
Theorem resultOk_undefined_ambiguous :
  methods.resultOk (helpers.ok undefined) = undefined
  /\ (forall e, methods.resultOk (helpers.err e) = undefined)
  /\ (exists r, has_type_Result r = true
                /\ methods.resultOk r = undefined
                /\ methods.isOk r = true)
  /\ ~ (forall r, has_type_Result r = true ->
                  methods.resultOk r = undefined -> methods.isErr r = true).
Proof.
  split; [reflexivity|].
  split; [reflexivity|].
  split.
  - exists (helpers.ok undefined). repeat split.
  - intros Hall.
    specialize (Hall (helpers.ok undefined) eq_refl eq_refl).
    discriminate.
Qed.

(** ** The functions and the methods agree *)

Lemma strict_eq_string_true (v : value) (s : string) :
  v === s = true -> v = str s.
Proof.
  destruct v; simpl; try discriminate.
  intros E. apply String.eqb_eq in E. now subst.
Qed.

(** A well-typed tagged value is of one of the two variants, and so is its
    equivalent instance. *)
Lemma equivalent_inv (r : Result) (this : Res) :
  equivalent r this ->
  (get r "kind" = str "ok" /\ class_of this = Ok
   /\ field this "value" = get r "inner")
  \/ (get r "kind" = str "err" /\ class_of this = Err
      /\ field this "error" = get r "inner").
Proof.
  unfold equivalent, has_type_Result, observe_Result, observe_Res,
    methods.isOk, methods.isErr, call_isOk, call_isErr.
  intros [T E].
  apply andb_true_iff in T as [T _].
  apply orb_true_iff in T as [T|T]; apply strict_eq_string_true in T;
    rewrite T in *; simpl in E; destruct (class_of this); simpl in E;
    inversion E; auto.
Qed.

Lemma observe_Result_ok (r : Result) :
  get r "kind" = str "ok" ->
  observe_Result r = a_result true false (get r "inner").
Proof. unfold observe_Result, methods.isOk, methods.isErr. now intros ->. Qed.

Lemma observe_Result_err (r : Result) :
  get r "kind" = str "err" ->
  observe_Result r = a_result false true (get r "inner").
Proof. unfold observe_Result, methods.isOk, methods.isErr. now intros ->. Qed.

(** The bridge takes every well-typed tagged value to an equivalent
    instance. *)
Lemma from_equivalent {cfg : TsConfig} (r : Result) :
  has_type_Result r = true -> equivalent r (Res.from r).
Proof.
  intros T. split; [exact T|].
  unfold has_type_Result in T.
  apply andb_true_iff in T as [T _].
  unfold Res.from, Res.ok, Res.err, observe_Res.
  apply orb_true_iff in T as [T|T]; apply strict_eq_string_true in T.
  - rewrite (observe_Result_ok r T), T; simpl.
    now rewrite Ok_value.
  - rewrite (observe_Result_err r T), T; simpl.
    now rewrite Err_error.
Qed.

Section Agreement.
Context {W : Type} {cfg : TsConfig}.

Lemma observe_Ok_new (v : value) :
  observe_Res (Ok.new v) = a_result true false v.
Proof. unfold observe_Res. now rewrite Ok_isOk, Ok_isErr, Ok_value. Qed.

Lemma observe_Err_new (e : value) :
  observe_Res (Err.new e) = a_result false true e.
Proof. unfold observe_Res. now rewrite Err_isOk, Err_isErr, Err_error. Qed.

(** Callbacks that end alike are seen alike. *)
Lemma observe_next (a : Args W Result) (a' : Args W Res) (v : value) (w : W) :
  equivalent_outcomes (next a v w) (next a' v w) ->
  (r' <- next a v ;; ret (observe_Result r')) w
  = (x <- next a' v ;; ret (observe_Res x)) w.
Proof.
  unfold equivalent_outcomes, bind, ret.
  destruct (next a v w) as [[r'|exn] w1], (next a' v w) as [[x|exn'] w2];
    simpl; intros [-> E]; try contradiction.
  - destruct E as [_ E]. now rewrite E.
  - now subst.
Qed.

(** Every operation but [match] has a method. *)
Lemma method_exists (o : operation) :
  o <> op_match -> find_method (method_name o) <> None.
Proof. destruct o; intros Ho; try congruence; discriminate. Qed.

Ltac unfold_operations :=
  unfold apply_function, apply_method, invoke; simpl find_method;
  cbv iota beta; unfold call_method;
  unfold methods.isOk, methods.isErr, methods.isOkAnd, methods.isErrAnd,
    methods.resultOk, methods.resultErr, methods.map, methods.mapOr,
    methods.mapOrElse, methods.mapErr, methods.inspect, methods.inspectErr,
    methods.expect, methods.unwrap, methods.unwrapOr, methods.unwrapOrElse,
    methods.expectErr, methods.unwrapErr, methods.and, methods.andThen,
    methods.or, methods.orElse;
  unfold Res.prototype.isOkAnd, Res.prototype.isErrAnd, Res.prototype.ok,
    Res.prototype.err, Res.prototype.map, Res.prototype.mapOr,
    Res.prototype.mapOrElse, Res.prototype.mapErr, Res.prototype.inspect,
    Res.prototype.inspectErr, Res.prototype.expect, Res.prototype.unwrap,
    Res.prototype.unwrapOr, Res.prototype.unwrapOrElse,
    Res.prototype.expectErr, Res.prototype.unwrapErr, Res.prototype.and,
    Res.prototype.andThen, Res.prototype.or, Res.prototype.orElse.

Ltac finish ObsR ObsT :=
  simpl; rewrite ?ObsR, ?ObsT, ?observe_Ok_new, ?observe_Err_new;
  reflexivity.

Ltac run_callback c ObsR ObsT :=
  match goal with
  | |- context [c ?x ?w] => destruct (c x w) as [[?|?] ?]; finish ObsR ObsT
  end.

(** C1 (amended): every operation other than [match] has a method, and on
    equivalent inputs (a well-typed tagged value and an instance of the same
    variant and payload, the same plain arguments and callbacks, equivalent
    result arguments) the function and the method end alike: the same final
    state and either the same exception, or the same boolean, the same
    extracted value, or results with the same [isOk], [isErr] and payload. *)
Theorem function_method_agree
    (o : operation) (a : Args W Result) (a' : Args W Res)
    (r : Result) (this : Res) (w : W) :
  o <> op_match -> equivalent r this -> equivalent_args a a' ->
  find_method (method_name o) <> None
  /\ apply_function o a r w = apply_method o a' this w.
Proof.
  intros Ho E (Hp & Hf & Hfb & Hd & Hm & Hoth & Hn & _ & _).
  split; [now apply method_exists|].
  pose proof (proj2 E) as ObsT. symmetry in ObsT.
  apply equivalent_inv in E.
  destruct Hoth as [_ Hoth].
  destruct E as [(K & C & P) | (K & C & P)].
  - pose proof (observe_Result_ok r K) as ObsR. rewrite ObsR in ObsT.
    destruct o; try congruence; clear Ho; unfold_operations;
      unfold call_isOk, call_isErr; rewrite ?C, ?K, ?P; simpl.
    all: try solve [apply observe_next, Hn].
    all: rewrite <- ?Hd, <- ?Hm, ?Hoth; unfold bind, ret, lift;
      rewrite <- ?Hp, <- ?Hf, <- ?Hfb.
    all: try solve [finish ObsR ObsT].
    all: first [ run_callback (predicate a) ObsR ObsT
               | run_callback (fn a) ObsR ObsT ].
  - pose proof (observe_Result_err r K) as ObsR. rewrite ObsR in ObsT.
    destruct o; try congruence; clear Ho; unfold_operations;
      unfold call_isOk, call_isErr; rewrite ?C, ?K, ?P; simpl.
    all: try solve [apply observe_next, Hn].
    all: rewrite <- ?Hd, <- ?Hm, ?Hoth; unfold bind, ret, lift;
      rewrite <- ?Hp, <- ?Hf, <- ?Hfb.
    all: try solve [finish ObsR ObsT].
    all: first [ run_callback (predicate a) ObsR ObsT
               | run_callback (fn a) ObsR ObsT
               | run_callback (fallback a) ObsR ObsT ].
Qed.

End Agreement.

(** The two sample callbacks that return a result end alike. *)
Lemma more_than_three_alike {cfg : TsConfig} (v : value) (w : unit) :
  equivalent_outcomes (more_than_three v w) (more_than_three_Res v w).
Proof.
  assert (Small : equivalent (helpers.err (str "too small"))
                             (Res.err (str "too small"))).
  { split; [reflexivity|]. unfold Res.err. now rewrite observe_Err_new. }
  unfold more_than_three, more_than_three_Res.
  destruct v as [| | |n| | | |]; try (split; [reflexivity|exact Small]).
  destruct (3 <? n)%Z; split; try reflexivity; try exact Small.
  split; [reflexivity|]. unfold Res.ok. now rewrite observe_Ok_new.
Qed.

(** The sample arguments are equivalent. *)
Lemma sample_args_equivalent {cfg : TsConfig} :
  equivalent_args
    (sample_args (helpers.err (str "late")) more_than_three)
    (sample_args (Res.err (str "late")) more_than_three_Res).
Proof.
  unfold equivalent_args, sample_args; simpl.
  repeat (split; [reflexivity|]).
  split; [split; [reflexivity|]|].
  - unfold Res.err. now rewrite observe_Err_new.
  - split; [apply more_than_three_alike|]. split; reflexivity.
Qed.

(** C1, at an input: [map(ok(5), x => x * 2)] and
    [Res.ok(5).map(x => x * 2)]: both show a success holding [10]. *)
Lemma function_method_agree_witness :
  apply_function op_map
    (sample_args (helpers.err (str "late")) more_than_three)
    (helpers.ok (number 5)) tt
  = apply_method (cfg := define_fields) op_map
      (sample_args (Res.err (cfg := define_fields) (str "late"))
                   (more_than_three_Res (cfg := define_fields)))
      (Res.ok (cfg := define_fields) (number 5)) tt
  /\ apply_function op_map
       (sample_args (helpers.err (str "late")) more_than_three)
       (helpers.ok (number 5)) tt
     = (Normal (a_result true false (number 10)), tt).
Proof.
  split; [|reflexivity].
  apply (function_method_agree (cfg := define_fields)).
  - discriminate.
  - split; reflexivity.
  - apply sample_args_equivalent.
Defined.

(** C1, as the specification words it, fails at [match]: the function
    [match(ok(1), handlers)] returns what the [ok] handler returns, while no
    class declares a member [match], so that [Res.ok(1).match(handlers)]
    throws a [TypeError]; the inputs are equivalent. *)
Lemma match_has_no_method :
  equivalent (helpers.ok (number 1)) (Res.ok (cfg := define_fields) (number 1))
  /\ equivalent_args
       (sample_args (helpers.err (str "late")) more_than_three)
       (sample_args (Res.err (cfg := define_fields) (str "late"))
                    (more_than_three_Res (cfg := define_fields)))
  /\ find_method (method_name op_match) = None
  /\ apply_function op_match
       (sample_args (helpers.err (str "late")) more_than_three)
       (helpers.ok (number 1)) tt
     = (Normal (a_value (number 1)), tt)
  /\ (exists msg,
        apply_method (cfg := define_fields) op_match
          (sample_args (Res.err (cfg := define_fields) (str "late"))
                       (more_than_three_Res (cfg := define_fields)))
          (Res.ok (cfg := define_fields) (number 1)) tt
        = (Throw (error "TypeError" msg), tt))
  /\ apply_function op_match
       (sample_args (helpers.err (str "late")) more_than_three)
       (helpers.ok (number 1)) tt
     <> apply_method (cfg := define_fields) op_match
          (sample_args (Res.err (cfg := define_fields) (str "late"))
                       (more_than_three_Res (cfg := define_fields)))
          (Res.ok (cfg := define_fields) (number 1)) tt.
Proof.
  split; [split; reflexivity|].
  split; [apply sample_args_equivalent|].
  split; [reflexivity|].
  split; [reflexivity|].
  split; [eexists; reflexivity|discriminate].
Qed.

(** * Further properties of the combinators *)

(** ** Laws of [andThen] and [map] *)

Section Laws.
Context {W : Type} {cfg : TsConfig}.

(** X1: chaining is associative.  Running [andThen] with [f] and then with
    [g] is running it once with "[f], then [andThen] with [g]": the same
    result or exception and the same final state, for every tagged value and
    every pair of callbacks; likewise for the method on every instance. *)
Theorem andThen_assoc
    (r : Result) (f g : value -> M W Result)
    (this : Res) (f' g' : value -> M W Res) (w : W) :
  (r' <- methods.andThen r f ;; methods.andThen r' g) w
  = methods.andThen r (fun x => r' <- f x ;; methods.andThen r' g) w
  /\ (x' <- Res.prototype.andThen this f' ;; Res.prototype.andThen x' g') w
     = Res.prototype.andThen this
         (fun x => x' <- f' x ;; Res.prototype.andThen x' g') w.
Proof.
  split.
  - unfold methods.andThen at 1 3. unfold bind, ret.
    destruct (get r "kind" === "ok") eqn:K.
    + destruct (f (get r "inner") w) as [[r'|exn] w']; reflexivity.
    + unfold methods.andThen. now rewrite K.
  - unfold Res.prototype.andThen at 1 3. unfold bind, ret.
    destruct (call_isOk this).
    + destruct (f' (field this "value") w) as [[x'|exn] w']; reflexivity.
    + unfold Res.prototype.andThen. now rewrite Err_isOk, Err_error.
Qed.

(** X2: [ok] is a unit of [andThen].  On the left, [andThen(ok(v), f)] is
    [f(v)]; on the right, [andThen(r, x => ok(x))] is a value with the
    discriminant and payload of [r], and is [ok(v)] itself when [r] is
    [ok(v)]. *)
Theorem andThen_ok_unit
    (r : Result) (v : value) (f : value -> M W Result) (w : W) :
  methods.andThen (helpers.ok v) f w = f v w
  /\ (exists r', methods.andThen r (fun x => ret (helpers.ok x)) w
                 = (Normal r', w)
                 /\ same_Result r' r)
  /\ methods.andThen (helpers.ok v) (fun x => ret (helpers.ok x)) w
     = (Normal (helpers.ok v), w).
Proof.
  split; [reflexivity|]. split; [|reflexivity].
  unfold methods.andThen, ret, same_Result.
  destruct (get r "kind" === "ok") eqn:K.
  - eexists; split; [reflexivity|]. split; [|reflexivity].
    apply strict_eq_string_true in K. now rewrite K.
  - eexists; split; [reflexivity|]. now split.
Qed.

(** X3: [map] composes.  Mapping [f] and then [g] is mapping "[f], then
    [g]" once: the callbacks run in the same order on the same arguments,
    with the same result or exception and final state; for the function on
    every tagged value and for the method on every instance. *)
Theorem map_compose
    (r : Result) (this : Res) (f g : value -> M W value) (w : W) :
  (r' <- methods.map r f ;; methods.map r' g) w
  = methods.map r (fun x => y <- f x ;; g y) w
  /\ (x' <- Res.prototype.map this f ;; Res.prototype.map x' g) w
     = Res.prototype.map this (fun x => y <- f x ;; g y) w.
Proof.
  split.
  - unfold methods.map at 1 3. unfold bind, ret.
    destruct (get r "kind" === "ok") eqn:K.
    + destruct (f (get r "inner") w) as [[y|exn] w']; reflexivity.
    + unfold methods.map. now rewrite K.
  - unfold Res.prototype.map at 1 3. unfold bind, ret.
    destruct (call_isOk this).
    + destruct (f (field this "value") w) as [[y|exn] w']; [|reflexivity].
      unfold Res.prototype.map, bind, ret.
      now rewrite Ok_isOk, Ok_value.
    + unfold Res.prototype.map, ret. now rewrite Err_isOk, Err_error.
Qed.

(** X4: [map] is [andThen] with the callback's value wrapped by [ok]:
    [map(r, f)] and [andThen(r, x => ok(f(x)))] end alike for every tagged
    value, and so do the two methods with [Res.ok] for every instance. *)
Theorem map_as_andThen
    (r : Result) (this : Res) (f : value -> M W value) (w : W) :
  methods.map r f w
  = methods.andThen r (fun x => y <- f x ;; ret (helpers.ok y)) w
  /\ Res.prototype.map this f w
     = Res.prototype.andThen this (fun x => y <- f x ;; ret (Res.ok y)) w.
Proof.
  unfold methods.map, methods.andThen, Res.prototype.map,
    Res.prototype.andThen.
  destruct (get r "kind" === "ok"), (call_isOk this); split; reflexivity.
Qed.

(** X5: [map] and [mapErr] commute: applying them in either order gives the
    same result or exception and the same final state, for every tagged
    value, every instance and all callbacks. *)
Theorem map_mapErr_commute
    (r : Result) (this : Res) (f g : value -> M W value) (w : W) :
  (r' <- methods.map r f ;; methods.mapErr r' g) w
  = (r' <- methods.mapErr r g ;; methods.map r' f) w
  /\ (x' <- Res.prototype.map this f ;; Res.prototype.mapErr x' g) w
     = (x' <- Res.prototype.mapErr this g ;; Res.prototype.map x' f) w.
Proof.
  split; cycle 1.
  { unfold Res.prototype.map at 1, Res.prototype.mapErr at 2.
    rewrite call_isErr_negb. unfold bind, ret.
    destruct (call_isOk this); simpl.
    - unfold Res.prototype.map, bind, ret. rewrite Ok_isOk, Ok_value.
      destruct (f (field this "value") w) as [[y|exn] w']; [|reflexivity].
      unfold Res.prototype.mapErr, ret. now rewrite Ok_isErr, Ok_value.
    - unfold Res.prototype.mapErr, bind, ret. rewrite Err_isErr, Err_error.
      destruct (g (field this "error") w) as [[y|exn] w']; [|reflexivity].
      unfold Res.prototype.map, ret. now rewrite Err_isOk, Err_error. }
  unfold methods.map at 1, methods.mapErr at 2. unfold bind, ret.
  destruct (get r "kind" === "ok") eqn:K.
  - assert (K' : get r "kind" === "err" = false).
    { apply strict_eq_string_true in K. now rewrite K. }
    rewrite K'. unfold methods.map. rewrite K. unfold bind, ret.
    destruct (f (get r "inner") w) as [[y|exn] w']; reflexivity.
  - unfold methods.mapErr. 
    destruct (get r "kind" === "err") eqn:K'.
    + unfold bind, ret.
      destruct (g (get r "inner") w) as [[y|exn] w']; reflexivity.
    + unfold methods.map, ret. now rewrite K.
Qed.

End Laws.

(** ** Callbacks that are not called *)

Lemma isOk_not_isErr (r : Result) :
  methods.isOk r = true -> methods.isErr r = false.
Proof.
  unfold methods.isOk, methods.isErr. intros K.
  apply strict_eq_string_true in K. now rewrite K.
Qed.

Section ShortCircuit.
Context {W : Type} {cfg : TsConfig}.

(** X6: on a tagged value that is not a success, and on an instance whose
    [isOk()] is [false], the operations of the success side call nothing:
    [andThen] and [inspect] return the failure, [isOkAnd] returns [false]
    and [mapOr] the default, in the state they were called in, for every
    callback. *)
Theorem failure_short_circuits
    (r : Result) (this : Res) (d : value)
    (f : value -> M W value) (p : value -> M W bool)
    (k : value -> M W Result) (k' : value -> M W Res) (w : W) :
  methods.isOk r = false -> call_isOk this = false ->
  methods.andThen r k w = (Normal r, w)
  /\ methods.inspect r f w = (Normal r, w)
  /\ methods.isOkAnd r p w = (Normal false, w)
  /\ methods.mapOr r d f w = (Normal d, w)
  /\ Res.prototype.andThen this k' w
     = (Normal (Err.new (field this "error")), w)
  /\ Res.prototype.inspect this f w = (Normal this, w)
  /\ Res.prototype.isOkAnd this p w = (Normal false, w)
  /\ Res.prototype.mapOr this d f w = (Normal d, w).
Proof.
  unfold methods.isOk. intros K K'.
  unfold methods.andThen, methods.inspect, methods.isOkAnd, methods.mapOr,
    Res.prototype.andThen, Res.prototype.inspect, Res.prototype.isOkAnd,
    Res.prototype.mapOr.
  rewrite K, K'. repeat split.
Qed.

(** X7: on a tagged value that is a success, and on an instance whose
    [isOk()] is [true], the operations of the failure side call nothing:
    [mapErr], [inspectErr] and [orElse] return the success, [isErrAnd]
    returns [false] and [unwrapOrElse] the payload, in the state they were
    called in, for every callback. *)
Theorem success_short_circuits
    (r : Result) (this : Res)
    (f : value -> M W value) (p : value -> M W bool)
    (k : value -> M W Result) (k' : value -> M W Res) (w : W) :
  methods.isOk r = true -> call_isOk this = true ->
  methods.mapErr r f w = (Normal r, w)
  /\ methods.inspectErr r f w = (Normal r, w)
  /\ methods.orElse r k w = (Normal r, w)
  /\ methods.isErrAnd r p w = (Normal false, w)
  /\ methods.unwrapOrElse r f w = (Normal (get r "inner"), w)
  /\ Res.prototype.mapErr this f w
     = (Normal (Ok.new (field this "value")), w)
  /\ Res.prototype.inspectErr this f w = (Normal this, w)
  /\ Res.prototype.orElse this k' w
     = (Normal (Ok.new (field this "value")), w)
  /\ Res.prototype.isErrAnd this p w = (Normal false, w)
  /\ Res.prototype.unwrapOrElse this f w
     = (Normal (field this "value"), w).
Proof.
  intros K K'.
  pose proof (isOk_not_isErr r K) as E. unfold methods.isOk in K.
  unfold methods.isErr in E.
  assert (E' : call_isErr this = false)
    by (rewrite call_isErr_negb, K'; reflexivity).
  unfold methods.mapErr, methods.inspectErr, methods.orElse,
    methods.isErrAnd, methods.unwrapOrElse, Res.prototype.mapErr,
    Res.prototype.inspectErr, Res.prototype.orElse, Res.prototype.isErrAnd,
    Res.prototype.unwrapOrElse.
  rewrite K, K', E, E'. repeat split.
Qed.

End ShortCircuit.

(** X6, at an input: [andThen] and [inspect] on [err("e")] with spies. *)
Lemma failure_short_circuits_witness :
  methods.andThen (helpers.err (str "e")) (spy more_than_three) ([], tt)
  = (Normal (helpers.err (str "e")), ([], tt))
  /\ Res.prototype.inspect (Res.err (cfg := define_fields) (str "e"))
       (spy double) ([], tt)
     = (Normal (Res.err (cfg := define_fields) (str "e")), ([], tt)).
Proof.
  pose proof (failure_short_circuits (cfg := define_fields)
                (helpers.err (str "e"))
                (Res.err (cfg := define_fields) (str "e")) undefined
                (spy double) (fun _ => ret true) (spy more_than_three)
                (spy (more_than_three_Res (cfg := define_fields)))
                ([], tt) eq_refl eq_refl) as P.
  split; [apply P|apply P].
Defined.

(** X7, at an input: [mapErr] and [orElse] on [ok(1)] with spies. *)
Lemma success_short_circuits_witness :
  methods.mapErr (helpers.ok (number 1)) (spy double) ([], tt)
  = (Normal (helpers.ok (number 1)), ([], tt))
  /\ Res.prototype.orElse (cfg := define_fields) (Res.ok (cfg := define_fields) (number 1))
       (spy (more_than_three_Res (cfg := define_fields))) ([], tt)
     = (Normal (Res.ok (cfg := define_fields) (number 1)), ([], tt)).
Proof.
  pose proof (success_short_circuits (cfg := define_fields)
                (helpers.ok (number 1))
                (Res.ok (cfg := define_fields) (number 1))
                (spy double) (fun _ => ret true) (spy more_than_three)
                (spy (more_than_three_Res (cfg := define_fields)))
                ([], tt) eq_refl eq_refl) as P.
  split; [apply P|apply P].
Defined.

(** ** Callbacks that are called once *)

Section Once.
Context {W : Type} {cfg : TsConfig}.

(** X8: on a success [inspect] calls its callback once, on the payload, and
    returns the very value it was given whatever the callback returns; an
    exception of the callback is not caught.  The method does the same and
    returns [this]. *)
Theorem inspect_once
    (r : Result) (this : Res) (impl : value -> M W value) (w : W) :
  methods.isOk r = true -> call_isOk this = true ->
  methods.inspect r (spy impl) ([], w)
  = match impl (get r "inner") w with
    | (Normal _, w') => (Normal r, ([get r "inner"], w'))
    | (Throw exn, w') => (Throw exn, ([get r "inner"], w'))
    end
  /\ Res.prototype.inspect this (spy impl) ([], w)
     = match impl (field this "value") w with
       | (Normal _, w') => (Normal this, ([field this "value"], w'))
       | (Throw exn, w') => (Throw exn, ([field this "value"], w'))
       end.
Proof.
  unfold methods.isOk. intros K K'.
  unfold methods.inspect, Res.prototype.inspect, spy, bind, ret.
  rewrite K, K'; simpl. split.
  - destruct (impl (get r "inner") w) as [[y|exn] w']; reflexivity.
  - destruct (impl (field this "value") w) as [[y|exn] w']; reflexivity.
Qed.

(** X9: [match] calls exactly one of its two handlers, once, on the payload:
    the [ok] handler when the discriminant is ["ok"] and the [err] handler
    otherwise; its result, exception and final state are that handler's. *)
Theorem match_one_handler
    (r : Result) (h_ok h_err : value -> M W value) (w : W) :
  methods.match_ r (spy h_ok) (spy h_err) ([], w)
  = match (if methods.isOk r then h_ok else h_err) (get r "inner") w with
    | (c, w') => (c, ([get r "inner"], w'))
    end.
Proof.
  unfold methods.match_, methods.isOk, spy.
  destruct (get r "kind" === "ok"); reflexivity.
Qed.

End Once.

(** X8, at an input: [inspect(ok(4), x => x * 2)] returns [ok(4)] after one
    call on [4]. *)
Lemma inspect_once_witness :
  methods.inspect (helpers.ok (number 4)) (spy double) ([], tt)
  = (Normal (helpers.ok (number 4)), ([number 4], tt)).
Proof.
  apply (inspect_once (helpers.ok (number 4))
           (Res.ok (cfg := define_fields) (number 4)) double tt
           eq_refl eq_refl).
Defined.

(** ** Extraction that can throw *)

(** X10: [expect] returns the payload of a success and otherwise throws an
    [Error] carrying the caller's message unchanged; [expectErr] returns the
    payload of a failure and otherwise throws it.  The functions and the
    methods do the same. *)
Theorem expect_messages {cfg : TsConfig} (v e : value) (m : string) :
  (methods.expect (helpers.ok v) m = Normal v
   /\ methods.expect (helpers.err e) m = Throw (new_Error m)
   /\ methods.expectErr (helpers.err e) m = Normal e
   /\ methods.expectErr (helpers.ok v) m = Throw (new_Error m))
  /\
  (Res.prototype.expect (Res.ok v) m = Normal v
   /\ Res.prototype.expect (Res.err e) m = Throw (new_Error m)
   /\ Res.prototype.expectErr (Res.err e) m = Normal e
   /\ Res.prototype.expectErr (Res.ok v) m = Throw (new_Error m)).
Proof.
  unfold Res.prototype.expect, Res.prototype.expectErr, Res.ok, Res.err.
  autorewrite with seika. repeat split.
Qed.

(** X11: [unwrapErr] returns the payload of a failure and, on a success with
    any payload, throws an [Error] whose message is
    ["Called unwrapErr on an Ok value"]; the function and the method
    agree. *)
Theorem unwrapErr_ok_err {cfg : TsConfig} (v e : value) :
  methods.unwrapErr (helpers.err e) = Normal e
  /\ Res.prototype.unwrapErr (Res.err e) = Normal e
  /\ methods.unwrapErr (helpers.ok v)
     = Throw (new_Error "Called unwrapErr on an Ok value")
  /\ Res.prototype.unwrapErr (Res.ok v)
     = Throw (new_Error "Called unwrapErr on an Ok value").
Proof.
  unfold Res.prototype.unwrapErr, Res.ok, Res.err.
  autorewrite with seika. repeat split.
Qed.

(** ** Well-typed and ill-typed tagged values *)

Lemma has_type_kind (r : Result) :
  has_type_Result r = true ->
  get r "kind" = str "ok" \/ get r "kind" = str "err".
Proof.
  unfold has_type_Result. intros T.
  apply andb_true_iff in T as [T _].
  apply orb_true_iff in T as [T|T]; apply strict_eq_string_true in T; auto.
Qed.

(** X12: on every tagged value of type [Result<T, E>], however it was built
    (any property order, any further properties), [isErr] is the negation of
    [isOk], and exactly one of [unwrap] and [unwrapErr] returns, with the
    payload, while the other throws. *)
Theorem typed_exclusive (r : Result) :
  has_type_Result r = true ->
  methods.isErr r = negb (methods.isOk r)
  /\ match methods.unwrap r, methods.unwrapErr r with
     | Normal v, Throw _ => methods.isOk r = true /\ v = get r "inner"
     | Throw _, Normal e => methods.isErr r = true /\ e = get r "inner"
     | _, _ => False
     end.
Proof.
  intros T. unfold methods.isErr, methods.isOk, methods.unwrap,
    methods.unwrapErr.
  destruct (has_type_kind r T) as [K|K]; rewrite K; simpl; auto.
Qed.

(** X12, at an input: a failure written with its properties in another
    order and one more property. *)
Lemma typed_exclusive_witness :
  methods.isErr [("inner", number 1); ("at", str "now"); ("kind", str "err")]
  = negb (methods.isOk
            [("inner", number 1); ("at", str "now"); ("kind", str "err")]).
Proof.
  apply (typed_exclusive
           [("inner", number 1); ("at", str "now"); ("kind", str "err")]
           eq_refl).
Defined.

(** X13: [Res.from] keeps the variant and the payload of every tagged value
    of type [Result<T, E>]: the instance answers [isOk()] and [isErr()] as
    the functions do on the tagged value, its [ok()] and [err()] are
    [resultOk] and [resultErr] of it, and its [toJSON()] has the same
    [kind]. *)
Theorem from_preserves {cfg : TsConfig} (r : Result) :
  has_type_Result r = true ->
  call_isOk (Res.from r) = methods.isOk r
  /\ call_isErr (Res.from r) = methods.isErr r
  /\ Res.prototype.ok (Res.from r) = methods.resultOk r
  /\ Res.prototype.err (Res.from r) = methods.resultErr r
  /\ get (call_toJSON (Res.from r)) "kind" = get r "kind".
Proof.
  intros T.
  unfold Res.from, Res.ok, Res.err, Res.prototype.ok, Res.prototype.err,
    methods.isOk, methods.isErr, methods.resultOk, methods.resultErr.
  destruct (has_type_kind r T) as [K|K]; rewrite K; simpl;
    autorewrite with seika; repeat split.
Qed.

(** X13, at an input: the same failure, converted. *)
Lemma from_preserves_witness :
  Res.prototype.err
    (Res.from (cfg := assign_fields)
       [("inner", number 1); ("at", str "now"); ("kind", str "err")])
  = methods.resultErr
      [("inner", number 1); ("at", str "now"); ("kind", str "err")].
Proof.
  apply (from_preserves (cfg := assign_fields)
           [("inner", number 1); ("at", str "now"); ("kind", str "err")]
           eq_refl).
Defined.

(** X14: on an object whose [kind] is neither ["ok"] nor ["err"] (which the
    type excludes but an unchecked input can be), nothing is validated: both
    [unwrap] and [unwrapErr] throw, [resultOk] and [resultErr] are both
    [undefined], [map] and [mapErr] return the object without calling, and
    [Res.from] makes it an [Err] instance holding its [inner], whose
    [isErr()] is [true] although [isErr] of the object is [false]. *)
Theorem untyped_kind {W} {cfg : TsConfig}
    (r : Result) (f : value -> M W value) (w : W) :
  methods.isOk r = false -> methods.isErr r = false ->
  methods.unwrap r = Throw (new_Error "Called unwrap on an Err value")
  /\ methods.unwrapErr r = Throw (new_Error "Called unwrapErr on an Ok value")
  /\ methods.resultOk r = undefined
  /\ methods.resultErr r = undefined
  /\ methods.map r f w = (Normal r, w)
  /\ methods.mapErr r f w = (Normal r, w)
  /\ Res.from r = Res.err (get r "inner")
  /\ call_isErr (Res.from r) = true.
Proof.
  unfold methods.isOk, methods.isErr. intros K E.
  unfold methods.unwrap, methods.unwrapErr, methods.resultOk,
    methods.resultErr, methods.map, methods.mapErr, Res.from.
  rewrite K, E. repeat split.
Qed.

(** X14, at an input: an object whose [kind] is ["pending"]. *)
Lemma untyped_kind_witness :
  Res.from (cfg := define_fields)
    [("kind", str "pending"); ("inner", number 1)]
  = Res.err (cfg := define_fields) (number 1)
  /\ methods.isErr [("kind", str "pending"); ("inner", number 1)] = false.
Proof.
  split; [|reflexivity].
  apply (untyped_kind (W := unit) (cfg := define_fields)
           [("kind", str "pending"); ("inner", number 1)] identity tt
           eq_refl eq_refl).
Defined.

(** ** [and], [or] and the defaults *)

(** X15: [and] and [or] are associative, as functions on all tagged values
    and as methods on all instances. *)
Theorem and_or_assoc {cfg : TsConfig} (a b c : Result) (x y z : Res) :
  methods.and (methods.and a b) c = methods.and a (methods.and b c)
  /\ methods.or (methods.or a b) c = methods.or a (methods.or b c)
  /\ Res.prototype.and (Res.prototype.and x y) z
     = Res.prototype.and x (Res.prototype.and y z)
  /\ Res.prototype.or (Res.prototype.or x y) z
     = Res.prototype.or x (Res.prototype.or y z).
Proof.
  unfold methods.and, methods.or, Res.prototype.and, Res.prototype.or.
  repeat split.
  - destruct (get a "kind" === "ok") eqn:K; [reflexivity|now rewrite K].
  - destruct (get a "kind" === "ok") eqn:K; [now rewrite K|reflexivity].
  - destruct (call_isOk x); [reflexivity|].
    now rewrite Err_isOk, Err_error.
  - destruct (call_isOk x); [|reflexivity].
    now rewrite Ok_isOk, Ok_value.
Qed.

(** X16: taking a default after [map] is [mapOr]: [unwrapOr(map(r, f), d)]
    and [mapOr(r, d, f)] end alike (same value or exception, same final
    state) for every tagged value, and so do the methods for every
    instance. *)
Theorem unwrapOr_map {W} {cfg : TsConfig}
    (r : Result) (this : Res) (d : value) (f : value -> M W value) (w : W) :
  (r' <- methods.map r f ;; ret (methods.unwrapOr r' d)) w
  = methods.mapOr r d f w
  /\ (x' <- Res.prototype.map this f ;; ret (Res.prototype.unwrapOr x' d)) w
     = Res.prototype.mapOr this d f w.
Proof.
  unfold methods.map, methods.mapOr, Res.prototype.map, Res.prototype.mapOr,
    bind, ret.
  split.
  - destruct (get r "kind" === "ok") eqn:K.
    + destruct (f (get r "inner") w) as [[y|exn] w']; reflexivity.
    + unfold methods.unwrapOr. now rewrite K.
  - destruct (call_isOk this).
    + destruct (f (field this "value") w) as [[y|exn] w']; [|reflexivity].
      unfold Res.prototype.unwrapOr. now rewrite Ok_isOk, Ok_value.
    + unfold Res.prototype.unwrapOr. now rewrite Err_isOk.
Qed.

(** ** [toJSON] *)

(** X17: [toJSON()] tells the instances the factories build apart: two
    successes have the same rendering only if their payloads are the same,
    likewise two failures, and a success and a failure never have the same
    rendering. *)
Theorem toJSON_injective {cfg : TsConfig} (v v' e e' : value) :
  (call_toJSON (Res.ok v) = call_toJSON (Res.ok v') <-> v = v')
  /\ (call_toJSON (Res.err e) = call_toJSON (Res.err e') <-> e = e')
  /\ call_toJSON (Res.ok v) <> call_toJSON (Res.err e).
Proof.
  unfold call_toJSON, Res.ok, Res.err; simpl.
  unfold Ok.prototype.toJSON, Err.prototype.toJSON.
  autorewrite with seika.
  repeat split; try congruence; try discriminate.
Qed.

(** ** The bridge and the combinators *)

Section Bridge.
Context {W : Type} {cfg : TsConfig}.

(** X18: [Res.from] commutes with the combinators.  On a tagged value of
    type [Result<T, E>], converting the result of the function gives the
    very instance the method returns on the converted value: for [map],
    [mapErr], [andThen] and [orElse] (whose callback results are converted
    too), with the same exception and final state, and for [and] and
    [or]. *)
Theorem from_commutes
    (r o : Result) (f : value -> M W value) (k : value -> M W Result)
    (w : W) :
  has_type_Result r = true ->
  (x <- methods.map r f ;; ret (Res.from x)) w
  = Res.prototype.map (Res.from r) f w
  /\ (x <- methods.mapErr r f ;; ret (Res.from x)) w
     = Res.prototype.mapErr (Res.from r) f w
  /\ (x <- methods.andThen r k ;; ret (Res.from x)) w
     = Res.prototype.andThen (Res.from r)
         (fun v => x <- k v ;; ret (Res.from x)) w
  /\ (x <- methods.orElse r k ;; ret (Res.from x)) w
     = Res.prototype.orElse (Res.from r)
         (fun v => x <- k v ;; ret (Res.from x)) w
  /\ Res.from (methods.and r o)
     = Res.prototype.and (Res.from r) (Res.from o)
  /\ Res.from (methods.or r o)
     = Res.prototype.or (Res.from r) (Res.from o).
Proof.
  intros T.
  unfold methods.map, methods.mapErr, methods.andThen, methods.orElse,
    methods.and, methods.or, Res.prototype.map, Res.prototype.mapErr,
    Res.prototype.andThen, Res.prototype.orElse, Res.prototype.and,
    Res.prototype.or.
  destruct (has_type_kind r T) as [K|K]; rewrite K; simpl.
  - assert (F : Res.from r = Ok.new (get r "inner"))
      by (unfold Res.from, Res.ok; now rewrite K).
    rewrite F. autorewrite with seika. unfold bind, ret.
    repeat split; rewrite ?F; try reflexivity.
    destruct (f (get r "inner") w) as [[y|exn] w']; reflexivity.
  - assert (F : Res.from r = Err.new (get r "inner"))
      by (unfold Res.from, Res.err; now rewrite K).
    rewrite F. autorewrite with seika. unfold bind, ret.
    repeat split; rewrite ?F; try reflexivity.
    destruct (f (get r "inner") w) as [[y|exn] w']; reflexivity.
Qed.

End Bridge.

(** X18, at an input: [mapErr(err(2), x => x * 2)]. *)
Lemma from_commutes_witness :
  (x <- methods.mapErr (helpers.err (number 2)) double ;;
   ret (Res.from (cfg := define_fields) x)) tt
  = Res.prototype.mapErr (cfg := define_fields)
      (Res.from (cfg := define_fields) (helpers.err (number 2))) double tt.
Proof.
  apply (from_commutes (cfg := define_fields)
           (helpers.err (number 2)) (helpers.ok undefined) double
           more_than_three tt eq_refl).
Defined.

(** ** Predicates *)

(** X19: when [isOkAnd] returns [true] the value is a success and the
    predicate returned [true] on its payload, leaving the state [isOkAnd]
    ends in; and then [isErrAnd] returns [false] on that value for every
    predicate, without calling it. *)
Theorem isOkAnd_true {W}
    (r : Result) (p q : value -> M W bool) (w w' w2 : W) :
  methods.isOkAnd r p w = (Normal true, w') ->
  methods.isOk r = true
  /\ p (get r "inner") w = (Normal true, w')
  /\ methods.isErrAnd r q w2 = (Normal false, w2).
Proof.
  unfold methods.isOkAnd, methods.isOk, methods.isErrAnd.
  destruct (get r "kind" === "ok") eqn:K; [|discriminate].
  intros P. apply strict_eq_string_true in K. rewrite K. auto.
Qed.

(** X19, at an input: [isOkAnd(ok(3), _ => true)]. *)
Lemma isOkAnd_true_witness :
  methods.isOk (helpers.ok (number 3)) = true
  /\ methods.isErrAnd (helpers.ok (number 3))
       (fun _ : value => @ret unit bool true) tt
     = (Normal false, tt).
Proof.
  pose proof (isOkAnd_true (helpers.ok (number 3))
                (fun _ => ret true) (fun _ => ret true) tt tt tt eq_refl)
    as P.
  split; apply P.
Defined.

(** ** Laws of [mapErr] and [orElse] *)

Section ErrLaws.
Context {W : Type} {cfg : TsConfig}.

(** X20: [mapErr] composes.  Mapping the error with [f] and then with [g]
    is mapping it once with "[f], then [g]", for the function on every
    tagged value and for the method on every instance. *)
Theorem mapErr_compose
    (r : Result) (this : Res) (f g : value -> M W value) (w : W) :
  (r' <- methods.mapErr r f ;; methods.mapErr r' g) w
  = methods.mapErr r (fun x => y <- f x ;; g y) w
  /\ (x' <- Res.prototype.mapErr this f ;; Res.prototype.mapErr x' g) w
     = Res.prototype.mapErr this (fun x => y <- f x ;; g y) w.
Proof.
  split.
  - unfold methods.mapErr at 1 3. unfold bind, ret.
    destruct (get r "kind" === "err") eqn:K.
    + destruct (f (get r "inner") w) as [[y|exn] w']; reflexivity.
    + unfold methods.mapErr. now rewrite K.
  - unfold Res.prototype.mapErr at 1 3. unfold bind, ret.
    destruct (call_isErr this).
    + destruct (f (field this "error") w) as [[y|exn] w']; [|reflexivity].
      unfold Res.prototype.mapErr, bind, ret.
      now rewrite Err_isErr, Err_error.
    + unfold Res.prototype.mapErr, ret. now rewrite Ok_isErr, Ok_value.
Qed.

(** X21: recovery is associative, and [err] is its unit on the left:
    [orElse] with [f] and then with [g] is [orElse] once with "[f], then
    [orElse] with [g]", for the function and for the method; and
    [orElse(err(e), f)] is [f(e)]. *)
Theorem orElse_assoc
    (r : Result) (f g : value -> M W Result)
    (this : Res) (f' g' : value -> M W Res) (e : value) (w : W) :
  (r' <- methods.orElse r f ;; methods.orElse r' g) w
  = methods.orElse r (fun x => r' <- f x ;; methods.orElse r' g) w
  /\ (x' <- Res.prototype.orElse this f' ;; Res.prototype.orElse x' g') w
     = Res.prototype.orElse this
         (fun x => x' <- f' x ;; Res.prototype.orElse x' g') w
  /\ methods.orElse (helpers.err e) f w = f e w
  /\ Res.prototype.orElse (Res.err e) f' w = f' e w.
Proof.
  split; [|split; [|split]].
  - unfold methods.orElse at 1 3. unfold bind, ret.
    destruct (get r "kind" === "ok") eqn:K.
    + unfold methods.orElse. now rewrite K.
    + destruct (f (get r "inner") w) as [[r'|exn] w']; reflexivity.
  - unfold Res.prototype.orElse at 1 3. unfold bind, ret.
    destruct (call_isOk this).
    + unfold Res.prototype.orElse. now rewrite Ok_isOk, Ok_value.
    + destruct (f' (field this "error") w) as [[x'|exn] w']; reflexivity.
  - reflexivity.
  - unfold Res.prototype.orElse, Res.err. now rewrite Err_isOk, Err_error.
Qed.

End ErrLaws.

(** ** [toString] *)

Lemma Ok_text_not_Err_text (s s' : string) :
  "Ok(" ++ s ++ ")" <> "Err(" ++ s' ++ ")".
Proof. simpl. discriminate. Qed.

(** X22: whatever the payloads print as, the text of an [Ok] is never the
    text of an [Err]; the text of [Res.ok(v)] is the text of [v] between
    ["Ok("] and [")"], and an exception of the conversion is not caught. *)
Theorem toString_variants {W} {cfg : TsConfig}
    (ToString : value -> M W string) (this that : Res) (v : value)
    (w w' : W) :
  match Ok_toString ToString this w, Err_toString ToString that w' with
  | (Normal s, _), (Normal s', _) => s <> s'
  | _, _ => True
  end
  /\ Ok_toString ToString (Res.ok v) w
     = match ToString v w with
       | (Normal s, w1) => (Normal ("Ok(" ++ s ++ ")"), w1)
       | (Throw exn, w1) => (Throw exn, w1)
       end.
Proof.
  unfold Ok_toString, Err_toString, Res.ok, bind, ret.
  rewrite Ok_value. split; [|reflexivity].
  destruct (ToString (field this "value") w) as [[s|exn] w1];
    destruct (ToString (field that "error") w') as [[s'|exn'] w1'];
    auto using Ok_text_not_Err_text.
Qed.

(** [Res.ok("value").toString()] and [Res.err("error").toString()], as in
    the tests. *)
Example toString_of_strings {cfg : TsConfig} :
  Ok_toString text_of_string (Res.ok (str "value")) tt
  = (Normal "Ok(value)", tt)
  /\ Err_toString text_of_string (Res.err (str "error")) tt
     = (Normal "Err(error)", tt).
Proof.
  unfold Ok_toString, Err_toString, Res.ok, Res.err, bind.
  rewrite Ok_value, Err_error. split; reflexivity.
Qed.
